(** * Acurast-Lite-Install-Update.py and setup_ssh.py: a shallow embedding

    Characters are modelled as [ascii] (code points 0..255); Python [str]
    values as Rocq [string]s. A bridge (adb) call made through
    [subprocess.run] is an oracle from its command to what the call does:
    it either raises or completes with an exit code and captured text. *)

From Stdlib Require Import Ascii String List ZArith Bool Permutation Lia.
Import ListNotations.
Open Scope string_scope.

(* ------------------------------------------------------------------ *)
(** ** Python string helpers *)

Definition nl : string := String "010"%char EmptyString.
(** the double quote character, as a one-character string *)
Definition dq : string := String "034"%char EmptyString.
Definition sq : string := "'".

(** [s.startswith(p)] *)
Fixpoint startswith (s p : string) : bool :=
  match p, s with
  | EmptyString, _ => true
  | String c p', String c' s' => Ascii.eqb c c' && startswith s' p'
  | String _ _, EmptyString => false
  end.

(** [sub in s] *)
Fixpoint py_in (sub s : string) : bool :=
  startswith s sub ||
  match s with
  | EmptyString => false
  | String _ s' => py_in sub s'
  end.

(** [s.endswith(suf)] *)
Definition endswith (s suf : string) : bool :=
  (String.length suf <=? String.length s)%nat &&
  String.eqb (substring (String.length s - String.length suf) (String.length suf) s) suf.

(** [str.lower()] on the Latin-1 range: A-Z and the Latin-1 capitals
    (0xC0..0xDE except 0xD7) move down by 32. *)
Definition lower_char (c : ascii) : ascii :=
  let n := nat_of_ascii c in
  if ((65 <=? n) && (n <=? 90))%nat
     || ((192 <=? n) && (n <=? 222) && negb (n =? 215))%nat
  then ascii_of_nat (n + 32) else c.

Fixpoint lower (s : string) : string :=
  match s with
  | EmptyString => EmptyString
  | String c s' => String (lower_char c) (lower s')
  end.

(** [str.isspace()] on one character of the Latin-1 range:
    \t \n \v \f \r, the separators 0x1C..0x1F, space, NEL (0x85) and NBSP (0xA0). *)
Definition py_isspace (c : ascii) : bool :=
  let n := nat_of_ascii c in
  ((9 <=? n) && (n <=? 13))%nat || ((28 <=? n) && (n <=? 32))%nat
  || (n =? 133)%nat || (n =? 160)%nat.

(** [not s.strip()]: the string is empty after stripping whitespace *)
Fixpoint strip_is_empty (s : string) : bool :=
  match s with
  | EmptyString => true
  | String c s' => py_isspace c && strip_is_empty s'
  end.

(** [s.replace(old_char, new)] for a one-character [old] *)
Fixpoint replace_char (c : ascii) (by_ : string) (s : string) : string :=
  match s with
  | EmptyString => EmptyString
  | String c' s' =>
      if Ascii.eqb c' c then by_ ++ replace_char c by_ s'
      else String c' (replace_char c by_ s')
  end.

(* ------------------------------------------------------------------ *)
(** ** shlex.quote (Python standard library)

The standard library's function: an empty string quotes to two single
    quotes; a string made only of the ASCII characters
    [% + , - . / 0-9 : = @ A-Z _ a-z] is returned as it is; any other
    string is wrapped in single quotes, each single quote inside being
    replaced by the five characters [' dq ' dq '] (close the quote, a
    double-quoted single quote, reopen the quote). *)

Definition shlex_safe_char (c : ascii) : bool :=
  let n := nat_of_ascii c in
  ((48 <=? n) && (n <=? 57))%nat          (* 0-9 *)
  || ((65 <=? n) && (n <=? 90))%nat       (* A-Z *)
  || ((97 <=? n) && (n <=? 122))%nat      (* a-z *)
  || (n =? 95)%nat                        (* _ *)
  || (n =? 37)%nat || (n =? 43)%nat || (n =? 44)%nat || (n =? 45)%nat
  || (n =? 46)%nat || (n =? 47)%nat || (n =? 58)%nat || (n =? 61)%nat
  || (n =? 64)%nat.                       (* % + , - . / : = @ *)

Fixpoint all_safe (s : string) : bool :=
  match s with
  | EmptyString => true
  | String c s' => shlex_safe_char c && all_safe s'
  end.

Definition shlex_quote (s : string) : string :=
  match s with
  | EmptyString => sq ++ sq
  | _ =>
      if all_safe s then s
      else sq ++ replace_char "'"%char (sq ++ dq ++ sq ++ dq ++ sq) s ++ sq
  end.

(* ------------------------------------------------------------------ *)
(** ** POSIX shell word recognition

    [sh_word m s] reads one shell word from the start of [s] in quoting
    mode [m] and returns the word's value after quote removal together
    with the unread input, which starts at the unquoted delimiter that
    ends the word. It fails ([None]) on anything that is not a literal:
    an expansion ([$], backquote, an unquoted [~]) or an unterminated
    quote. Unquoted: blanks, newline and the operators [; & | < > ( )]
    end the word, a backslash quotes the next character (and removes a
    backslash-newline). Single quotes keep every character literally.
    Double quotes keep everything but [$], backquote, [\] and the closing
    quote; [\] there escapes only [$], backquote, the double quote, [\]
    and newline. *)

Inductive qmode := Unq | InSq | InDq.

Definition sh_delim (c : ascii) : bool :=
  let n := nat_of_ascii c in
  (n =? 32)%nat || (n =? 9)%nat || (n =? 10)%nat || (n =? 59)%nat
  || (n =? 38)%nat || (n =? 124)%nat || (n =? 60)%nat || (n =? 62)%nat
  || (n =? 40)%nat || (n =? 41)%nat.

Definition is_char (k : nat) (c : ascii) : bool := (nat_of_ascii c =? k)%nat.

Definition cons_word (c : ascii) (r : option (string * string)) :=
  match r with
  | Some (w, rest) => Some (String c w, rest)
  | None => None
  end.

Fixpoint sh_word (m : qmode) (s : string) : option (string * string) :=
  match s with
  | EmptyString =>
      match m with Unq => Some (EmptyString, EmptyString) | _ => None end
  | String c s' =>
      match m with
      | Unq =>
          if sh_delim c then Some (EmptyString, s)
          else if is_char 39 c then sh_word InSq s'
          else if is_char 34 c then sh_word InDq s'
          else if is_char 36 c || is_char 96 c || is_char 126 c then None
          else if is_char 92 c then
            match s' with
            | EmptyString => None
            | String c2 s2 =>
                if is_char 10 c2 then sh_word Unq s2 else cons_word c2 (sh_word Unq s2)
            end
          else cons_word c (sh_word Unq s')
      | InSq =>
          if is_char 39 c then sh_word Unq s' else cons_word c (sh_word InSq s')
      | InDq =>
          if is_char 34 c then sh_word Unq s'
          else if is_char 36 c || is_char 96 c then None
          else if is_char 92 c then
            match s' with
            | EmptyString => None
            | String c2 s2 =>
                if is_char 10 c2 then sh_word InDq s2
                else if is_char 36 c2 || is_char 96 c2 || is_char 34 c2 || is_char 92 c2
                then cons_word c2 (sh_word InDq s2)
                else cons_word c (cons_word c2 (sh_word InDq s2))
            end
          else cons_word c (sh_word InDq s')
      end
  end.

(* ------------------------------------------------------------------ *)
(** ** setup_ssh.py: the Termux bash script (lines 71-95)

    The f-string's [\n] escapes inside [printf '%s\n%s\n'] are real
    newlines in the rendered text. *)

Definition script_head : string :=
  "#!/data/data/com.termux/files/usr/bin/bash" ++ nl ++
  "set -e" ++ nl ++ nl ++
  "TERMUX_SSH_PASSWORD=".

Definition script_tail : string :=
  nl ++ nl ++
  "if command -v sshd >/dev/null 2>&1; then" ++ nl ++
  "  echo " ++ dq ++ "OpenSSH already installed (sshd found)" ++ dq ++ nl ++
  "else" ++ nl ++
  "  pkg update -y" ++ nl ++
  "  pkg install -y openssh" ++ nl ++
  "fi" ++ nl ++ nl ++
  "# Update password (Termux's passwd prompts twice)" ++ nl ++
  "if [ -n " ++ dq ++ "$TERMUX_SSH_PASSWORD" ++ dq ++ " ]; then" ++ nl ++
  "  printf '%s" ++ nl ++ "%s" ++ nl ++ "' " ++ dq ++ "$TERMUX_SSH_PASSWORD" ++ dq ++ " "
    ++ dq ++ "$TERMUX_SSH_PASSWORD" ++ dq ++ " | passwd" ++ nl ++
  "fi" ++ nl ++ nl ++
  "# Start sshd if not already running" ++ nl ++
  "if ! pgrep -x sshd >/dev/null 2>&1; then" ++ nl ++
  "  sshd" ++ nl ++
  "fi" ++ nl ++ nl ++
  "echo " ++ dq ++ "Termux SSH ready" ++ dq ++ nl.

(** [pw = shlex.quote(TERMUX_SSH_PASSWORD)] and the triple-quoted f-string around it *)
Definition termux_bash_script (TERMUX_SSH_PASSWORD : string) : string :=
  let pw := shlex_quote TERMUX_SSH_PASSWORD in
  script_head ++ pw ++ script_tail.

(* ------------------------------------------------------------------ *)
(** ** Exceptions and bridge calls *)

(** A Python exception: [CalledProcessError] as raised by
    [subprocess.run(check=True)], or any other exception by type name
    and message. *)
Inductive py_exc :=
| PyException (type_name : string) (message : string)
| CalledProcessError (returncode : Z) (cmd : list string).

(** [subprocess.CompletedProcess] with captured text output *)
Record completed := {
  returncode : Z;
  stdout : string;
  stderr : string
}.

(** What one [subprocess.run] of the bridge does: it raises (the
    executable is missing, the output cannot be decoded, ...) or the
    process runs and exits. *)
Inductive bridge_call :=
| Raised (e : py_exc)
| Completed (cp : completed).

(* ------------------------------------------------------------------ *)
(** ** Acurast-Lite-Install-Update.py *)

Module Install.

(** one element of [release_data["assets"]] *)
Record asset := {
  name : string;
  browser_download_url : string
}.

(** the text of a failed resolution (line 35) *)
Definition not_found : py_exc :=
  PyException "Exception" "Could not find processor-lite APK in latest release".

(** the asset test of line 28 *)
Definition is_lite_apk (a : asset) : bool :=
  py_in "processor-lite" (lower (name a)) && endswith (name a) ".apk".

(** the [for asset in ...] loop of lines 27-33 *)
Fixpoint find_asset (assets : list asset) : option asset :=
  match assets with
  | [] => None
  | a :: rest => if is_lite_apk a then Some a else find_asset rest
  end.

(** [get_latest_acurast_lite_apk], lines 16-39. [response] is what
    [urlopen] + [json.loads] produce: an exception, or the release object
    whose ["assets"] key is present ([Some]) or absent ([None]). *)
Definition get_latest_acurast_lite_apk
    (response : py_exc + option (list asset)) : py_exc + (string * string) :=
  match response with
  | inl e => inl e
  | inr assets_opt =>
      let assets := match assets_opt with Some l => l | None => [] end in
      match find_asset assets with
      | Some a => inr (browser_download_url a, name a)
      | None => inl not_found
      end
  end.

(** [os.path.join] depends on the host: [download_apk] and [main] take it
    as the argument [os_path_join]. This is its POSIX instance,
    [posixpath.join(a, b)] for two text arguments; the Windows one
    ([ntpath.join]) also treats drive letters and backslashes and is not
    modelled here. *)
Definition posixpath_join (a b : string) : string :=
  if startswith b "/" then b
  else if String.eqb a "" || endswith a "/" then a ++ b
  else a ++ "/" ++ b.

(** [download_apk], lines 41-63: [urlretrieve] followed by [getsize];
    [fetch url path] is [None] when both succeed. *)
Definition download_apk (temp_dir : string)
    (os_path_join : string -> string -> string)
    (fetch : string -> string -> option py_exc)
    (apk_url apk_name : string) : py_exc + string :=
  let local_apk_path := os_path_join temp_dir apk_name in
  match fetch apk_url local_apk_path with
  | Some e => inl e
  | None => inr local_apk_path
  end.

(** the shell command line of line 75 *)
Definition install_cmd (ADB device_id apk_path : string) : string :=
  dq ++ ADB ++ dq ++ " -s " ++ device_id ++ " install -r " ++ dq ++ apk_path ++ dq.

Section WithStr.

(** [str(e)]: the runtime's text of an exception *)
Variable py_str : py_exc -> string.

(** [install_apk_on_device], lines 65-91. [run] is the thread's
    [subprocess.run(..., shell=True, capture_output=True, text=True)]. *)
Definition install_apk_on_device (ADB : string) (run : string -> bridge_call)
    (device_id apk_path : string) : string :=
  match run (install_cmd ADB device_id apk_path) with
  | Raised e => "[" ++ device_id ++ "] Error: " ++ py_str e
  | Completed result =>
      if Z.eqb (returncode result) 0 || py_in "Success" (stdout result) then
        "[" ++ device_id ++ "] Success"
      else
        let error_msg := if String.eqb (stderr result) "" then stdout result
                         else stderr result in
        "[" ++ device_id ++ "] Failed: " ++ error_msg
  end.

(** What the install run does, in order. *)
Inductive event :=
| Bridge (device_id cmd : string)         (* a bridge process for one device *)
| Report (device_id line : string)        (* a per-device line printed by main *)
| Cleanup (path : string)                 (* the cleanup step (lines 140-145) *)
| Unlink (path : string).                 (* [os.unlink(apk_path)] *)

Inductive run_end :=
| NoDevices                               (* line 104 *)
| ScriptFailed (e : py_exc)               (* lines 152-154 *)
| Completed_all.                          (* lines 147-150 *)

Definition nth_device (devices : list string) (i : nat) : string := nth i devices "".

(** [future.result()] of the i-th submitted future: the value returned by
    [install_apk_on_device]; [sh i] is the bridge process of that thread. *)
Definition future_result (ADB : string) (sh : nat -> string -> bridge_call)
    (devices : list string) (apk_path : string) (i : nat) : py_exc + string :=
  inr (install_apk_on_device ADB (sh i) (nth_device devices i) apk_path).

(** the body of [for future in as_completed(...)], lines 133-138 *)
Definition report_line (device_id : string) (r : py_exc + string) : string :=
  match r with
  | inr result => result
  | inl exc => "[" ++ device_id ++ "] Generated an exception: " ++ py_str exc
  end.

(** Lines 125-138. The futures are the indices [0 .. N-1] of [devices]
    ([future_to_device] maps future i to [devices[i]]); [order] is the
    order in which [as_completed] yields them. Each future's bridge
    process runs before its result is reported; leaving the [with] block
    waits for all of them. *)
Definition fan_out (ADB : string) (sh : nat -> string -> bridge_call)
    (devices : list string) (apk_path : string) (order : list nat) : list event :=
  flat_map (fun i =>
      let device_id := nth_device devices i in
      [Bridge device_id (install_cmd ADB device_id apk_path);
       Report device_id (report_line device_id (future_result ADB sh devices apk_path i))])
    order.

(** [main], lines 93-154. [exists_at_cleanup] is what [os.path.exists]
    answers at line 143. *)
Definition main (ADB : string) (devices : list string)
    (response : py_exc + option (list asset)) (temp_dir : string)
    (os_path_join : string -> string -> string)
    (fetch : string -> string -> option py_exc)
    (sh : nat -> string -> bridge_call) (order : list nat)
    (exists_at_cleanup : bool) : list event * run_end :=
  match devices with
  | [] => ([], NoDevices)
  | _ :: _ =>
      match get_latest_acurast_lite_apk response with
      | inl e => ([], ScriptFailed e)
      | inr (apk_url, apk_name) =>
          match download_apk temp_dir os_path_join fetch apk_url apk_name with
          | inl e => ([], ScriptFailed e)
          | inr apk_path =>
              ((fan_out ADB sh devices apk_path order
                 ++ [Cleanup apk_path]
                 ++ (if exists_at_cleanup then [Unlink apk_path] else []))%list,
               Completed_all)
          end
      end
  end.

(** The per-device lines of a run, in the order printed: the outcomes
    the run reports. *)
Fixpoint reports_of (t : list event) : list (string * string) :=
  match t with
  | [] => []
  | Report d line :: t' => (d, line) :: reports_of t'
  | _ :: t' => reports_of t'
  end.

(** the number of cleanup steps in a trace *)
Definition cleanups (t : list event) : nat :=
  length (filter (fun ev => match ev with Cleanup _ => true | _ => false end) t).

(** bridge and report events: the work of the fan-out *)
Definition is_device_event (ev : event) : bool :=
  match ev with Bridge _ _ | Report _ _ => true | _ => false end.

(** the device ids the bridge is run for, in the order of a trace *)
Fixpoint bridges_of (t : list event) : list string :=
  match t with
  | [] => []
  | Bridge d _ :: t' => d :: bridges_of t'
  | _ :: t' => bridges_of t'
  end.

End WithStr.

End Install.

(* ------------------------------------------------------------------ *)
(** ** setup_ssh.py *)

Module Ssh.

(** What the provisioning run does, in order. *)
Inductive event :=
| Invoke (args : list string)                (* one [run(...)] of the bridge *)
| WriteFile (path content : string)          (* the NamedTemporaryFile write *)
| Sleep (ms : nat).

(** A writer-and-exception monad: the events performed and either the
    exception that escaped or the value returned. *)
Definition M (A : Type) : Type := (list event * (py_exc + A))%type.

Definition ret {A} (a : A) : M A := ([], inr a).
Definition raise {A} (e : py_exc) : M A := ([], inl e).
Definition emit (e : event) : M unit := ([e], inr tt).

Definition bind {A B} (m : M A) (f : A -> M B) : M B :=
  match m with
  | (t, inl e) => (t, inl e)
  | (t, inr a) => let (t', r) := f a in ((t ++ t')%list, r)
  end.

Notation "x <- m ;; k" := (bind m (fun x => k))
  (at level 61, m at next level, right associativity).
Notation "m ;;; k" := (bind m (fun _ => k))
  (at level 61, right associativity).

Section Run.

(** [ADB = os.environ.get("adb_path", "adb")] *)
Variable ADB : string.
(** what each bridge process does, by its argument vector *)
Variable adb : list string -> bridge_call.

(** [run(args, check=...)], lines 37-45 (the trace print and the
    Windows creation flag are left out) *)
Definition run (args : list string) (check : bool) : M completed :=
  emit (Invoke args) ;;;
  match adb args with
  | Raised e => raise e
  | Completed cp =>
      if check && negb (Z.eqb (returncode cp) 0)
      then raise (CalledProcessError (returncode cp) args)
      else ret cp
  end.

Definition pm_list_args (device_id : string) : list string :=
  [ADB; "-s"; device_id; "shell"; "pm"; "list"; "packages"; "com.termux"].

(** [check_termux_installed], lines 48-50 *)
Definition check_termux_installed (device_id : string) : M bool :=
  cp <- run (pm_list_args device_id) false ;;
  ret (py_in "com.termux" (stdout cp)).

Definition device_script_path : string := "/data/local/tmp/setup_ssh.sh".

Definition push_args (device_id local_script_path : string) : list string :=
  [ADB; "-s"; device_id; "push"; local_script_path; device_script_path].

Definition chmod_args (device_id : string) : list string :=
  [ADB; "-s"; device_id; "shell"; "chmod"; "755"; device_script_path].

Definition keyevent_args (device_id : string) : list string :=
  [ADB; "-s"; device_id; "shell"; "input"; "keyevent"; "66"].

(** [main], lines 53-125. [DEVICES] is [os.environ["devices"].split()],
    [TERMUX_SSH_PASSWORD] the substituted secret, and [local_script_path]
    the name [NamedTemporaryFile] picks. *)
Definition main (DEVICES : list string) (TERMUX_SSH_PASSWORD : string)
    (local_script_path : string) : M Z :=
  match DEVICES with
  | [] => ret 2%Z
  | device_id :: _ =>
      if strip_is_empty TERMUX_SSH_PASSWORD then ret 2%Z else
      installed <- check_termux_installed device_id ;;
      if negb installed then ret 3%Z else
      let termux_script := termux_bash_script TERMUX_SSH_PASSWORD in
      emit (WriteFile local_script_path termux_script) ;;;
      run [ADB; "-s"; device_id; "shell"; "am"; "force-stop"; "com.termux"] false ;;;
      emit (Sleep 1000) ;;;
      run (push_args device_id local_script_path) true ;;;
      run (chmod_args device_id) true ;;;
      run [ADB; "-s"; device_id; "shell"; "am"; "start"; "-n";
           "com.termux/.app.TermuxActivity"] false ;;;
      emit (Sleep 4000) ;;;
      let typed := "bash%s" ++ device_script_path in
      run [ADB; "-s"; device_id; "shell"; "input"; "text"; typed] false ;;;
      emit (Sleep 500) ;;;
      run (keyevent_args device_id) false ;;;
      ret 0%Z
  end.

End Run.

(** [raise SystemExit(main())]: the returned number, or 1 when an
    exception escapes [main]. *)
Definition exit_status (r : py_exc + Z) : Z :=
  match r with
  | inr n => n
  | inl _ => 1%Z
  end.

End Ssh.

(* ------------------------------------------------------------------ *)
(** ** Sample inputs *)

Module Demo.

Definition app_v1 : Install.asset :=
  {| Install.name := "app-v1.apk"; Install.browser_download_url := "https://example.org/app-v1.apk" |}.
Definition lite_v2 : Install.asset :=
  {| Install.name := "processor-lite-v2.apk";
     Install.browser_download_url := "https://example.org/processor-lite-v2.apk" |}.
Definition other : Install.asset :=
  {| Install.name := "other.txt"; Install.browser_download_url := "https://example.org/other.txt" |}.

(** the release payload of the spec's resolution example *)
Definition release : py_exc + option (list Install.asset) := inr (Some [app_v1; lite_v2; other]).

Definition devices : list string := ["D1"; "D2"; "D3"].
Definition exc_text (e : py_exc) : string :=
  match e with PyException _ m => m | CalledProcessError _ _ => "CalledProcessError" end.
Definition fetch_ok (_ _ : string) : option py_exc := None.
Definition apk_path : string := "/tmp/processor-lite-v2.apk".

(** device 2 (index 1) raises, the others install *)
Definition sh (i : nat) (_ : string) : bridge_call :=
  if Nat.eqb i 1 then Raised (PyException "OSError" "device 2 unreachable")
  else Completed {| returncode := 0; stdout := "Success"; stderr := "" |}.

(** a completion order of the three futures *)
Definition order : list nat := [2; 0; 1]%nat.

(** an install that exits 1 but prints the marker *)
Definition marker_run (_ : string) : bridge_call :=
  Completed {| returncode := 1; stdout := "Performing Streamed Install Success"; stderr := "" |}.

(** a bridge where every call exits 0 and lists Termux *)
Definition ok_adb (_ : list string) : bridge_call :=
  Completed {| returncode := 0; stdout := "package:com.termux"; stderr := "" |}.

(** a host without the adb executable *)
Definition missing_adb (_ : list string) : bridge_call :=
  Raised (PyException "FileNotFoundError" "No such file or directory: 'adb'").

(** What [pm list packages FILTER] prints on a device (Android's package
    manager, outside this repository): one [package:NAME] line for each
    installed package whose name contains FILTER. *)
Definition pm_list_packages (installed : list string) (filter : string) : string :=
  fold_right (fun n acc => if py_in filter n then "package:" ++ n ++ nl ++ acc else acc)
    "" installed.

(** a device with the packages [installed], on which every bridge call
    exits 0 and the package query prints what [pm] prints *)
Definition device_adb (installed : list string) (args : list string) : bridge_call :=
  match args with
  | [_; "-s"; _; "shell"; "pm"; "list"; "packages"; f] =>
      Completed {| returncode := 0; stdout := pm_list_packages installed f; stderr := "" |}
  | _ => Completed {| returncode := 0; stdout := ""; stderr := "" |}
  end.

(** the Termux:API plugin without Termux itself *)
Definition plugin_only : list string := ["com.termux.api"; "com.android.settings"].

End Demo.

(* ================================================================== *)
(** * Properties *)

(** ** String lemmas *)

Lemma str_app_assoc (a b c : string) : (a ++ b) ++ c = a ++ (b ++ c).
Proof. induction a as [|x a IH]; simpl; [reflexivity | now rewrite IH]. Qed.

Lemma str_app_nil_r (a : string) : a ++ "" = a.
Proof. induction a as [|x a IH]; simpl; [reflexivity | now rewrite IH]. Qed.

Lemma str_app_cancel_l (p a b : string) : p ++ a = p ++ b -> a = b.
Proof. induction p as [|x p IH]; simpl; [auto | intros H; injection H; auto]. Qed.

Lemma is_char_39 (c : ascii) : is_char 39 c = Ascii.eqb c "'"%char.
Proof.
  destruct c as [[] [] [] [] [] [] [] []]; reflexivity.
Qed.

(** ** Shell words *)

Definition app_word (p : string) (r : option (string * string)) :=
  match r with
  | Some (w, rest) => Some ((p ++ w)%string, rest)
  | None => None
  end.

Lemma cons_app_word (c : ascii) (p : string) r :
  cons_word c (app_word p r) = app_word (String c p) r.
Proof. destruct r as [[w rest]|]; reflexivity. Qed.

(** A character shlex leaves unquoted means nothing to the shell. *)
Lemma shlex_safe_plain (c : ascii) :
  shlex_safe_char c = true ->
  sh_delim c = false /\ is_char 39 c = false /\ is_char 34 c = false /\
  (is_char 36 c || is_char 96 c || is_char 126 c) = false /\ is_char 92 c = false.
Proof.
  destruct c as [[] [] [] [] [] [] [] []]; vm_compute; intros H;
    first [discriminate H | repeat split].
Qed.

Lemma sh_word_safe (s t : string) :
  all_safe s = true -> sh_word Unq (s ++ t) = app_word s (sh_word Unq t).
Proof.
  induction s as [|c s IH]; simpl; intros H.
  - destruct (sh_word Unq t) as [[w r]|]; reflexivity.
  - apply andb_prop in H as [Hc Hs].
    destruct (shlex_safe_plain c Hc) as (H1 & H2 & H3 & H4 & H5).
    rewrite H1, H2, H3, H4, H5, IH by exact Hs.
    apply cons_app_word.
Qed.

(** Inside single quotes, the replaced body reads back as the original. *)
Lemma sh_word_single_quoted (s t : string) :
  sh_word InSq (replace_char "'"%char (sq ++ dq ++ sq ++ dq ++ sq) s ++ sq ++ t)
  = app_word s (sh_word Unq t).
Proof.
  induction s as [|c s IH]; simpl.
  - destruct (sh_word Unq t) as [[w r]|]; reflexivity.
  - destruct (Ascii.eqb c "'"%char) eqn:E.
    + apply Ascii.eqb_eq in E; subst c.
      simpl in *. rewrite IH. apply cons_app_word.
    + simpl in *. rewrite is_char_39, E, IH. apply cons_app_word.
Qed.

Lemma sh_word_script_tail : sh_word Unq script_tail = Some (EmptyString, script_tail).
Proof. reflexivity. Qed.

(** ** C3 *)

(** C3: for every secret, the rendered Termux script is the fixed head
    (ending in [TERMUX_SSH_PASSWORD=]), one word [w], and the fixed tail;
    read with POSIX shell quoting, [w] is exactly one literal word whose
    value is the secret, ended by the newline that starts the tail, so
    nothing of the secret runs as shell syntax. *)
Theorem termux_script_secret_roundtrip (secret : string) :
  exists w,
    termux_bash_script secret = script_head ++ w ++ script_tail /\
    sh_word Unq (w ++ script_tail) = Some (secret, script_tail).
Proof.
  exists (shlex_quote secret). split; [reflexivity|].
  unfold shlex_quote. destruct secret as [|c s] eqn:Es.
  - reflexivity.
  - rewrite <- Es. destruct (all_safe secret) eqn:Hs.
    + rewrite sh_word_safe, sh_word_script_tail by exact Hs.
      simpl. now rewrite str_app_nil_r.
    + rewrite str_app_assoc. simpl.
      rewrite str_app_assoc, sh_word_single_quoted, sh_word_script_tail.
      simpl. now rewrite str_app_nil_r.
Qed.

(** ** Install flow lemmas *)

Lemma map_nth_seq_all {A} (l : list A) (d : A) :
  map (fun i => nth i l d) (seq 0 (length l)) = l.
Proof.
  induction l as [|a l IH]; [reflexivity|].
  simpl. rewrite <- seq_shift, map_map. simpl. now rewrite IH.
Qed.

Lemma reports_of_app (t1 t2 : list Install.event) :
  Install.reports_of (t1 ++ t2) = (Install.reports_of t1 ++ Install.reports_of t2)%list.
Proof.
  induction t1 as [|ev t1 IH]; [reflexivity|].
  destruct ev; simpl; rewrite ?IH; reflexivity.
Qed.

Lemma bridges_of_app (t1 t2 : list Install.event) :
  Install.bridges_of (t1 ++ t2) = (Install.bridges_of t1 ++ Install.bridges_of t2)%list.
Proof.
  induction t1 as [|ev t1 IH]; [reflexivity|].
  destruct ev; simpl; rewrite ?IH; reflexivity.
Qed.

Section InstallFacts.

Variable py_str : py_exc -> string.
Variable ADB : string.
Variable sh : nat -> string -> bridge_call.
Variable devices : list string.
Variable apk_path : string.

(** the outcome of the i-th submitted device *)
Definition outcome_of (i : nat) : string * string :=
  (Install.nth_device devices i,
   Install.install_apk_on_device py_str ADB (sh i) (Install.nth_device devices i) apk_path).

Lemma reports_of_fan_out (order : list nat) :
  Install.reports_of (Install.fan_out py_str ADB sh devices apk_path order)
  = map outcome_of order.
Proof.
  induction order as [|i order IH]; [reflexivity|].
  unfold Install.fan_out in *. simpl. rewrite <- IH. reflexivity.
Qed.

Lemma fan_out_no_cleanup (order : list nat) :
  Install.cleanups (Install.fan_out py_str ADB sh devices apk_path order) = 0%nat.
Proof.
  induction order as [|i order IH]; [reflexivity|].
  unfold Install.cleanups, Install.fan_out in *. simpl. exact IH.
Qed.

Lemma bridges_of_fan_out (order : list nat) :
  Install.bridges_of (Install.fan_out py_str ADB sh devices apk_path order)
  = map (Install.nth_device devices) order.
Proof.
  induction order as [|i order IH]; [reflexivity|].
  unfold Install.fan_out in *. simpl. rewrite <- IH. reflexivity.
Qed.

End InstallFacts.

Lemma main_reaches_fan_out py_str ADB devices response temp_dir os_path_join fetch sh order ex
    apk_url apk_name apk_path :
  devices <> [] ->
  Install.get_latest_acurast_lite_apk response = inr (apk_url, apk_name) ->
  Install.download_apk temp_dir os_path_join fetch apk_url apk_name = inr apk_path ->
  Install.main py_str ADB devices response temp_dir os_path_join fetch sh order ex =
    ((Install.fan_out py_str ADB sh devices apk_path order
       ++ [Install.Cleanup apk_path]
       ++ (if ex then [Install.Unlink apk_path] else []))%list,
     Install.Completed_all).
Proof.
  intros Hd Hr Hdl. unfold Install.main.
  destruct devices as [|d rest]; [congruence|].
  rewrite Hr, Hdl. reflexivity.
Qed.

Lemma main_reports py_str ADB devices response temp_dir os_path_join fetch sh order ex
    apk_url apk_name apk_path :
  devices <> [] ->
  Install.get_latest_acurast_lite_apk response = inr (apk_url, apk_name) ->
  Install.download_apk temp_dir os_path_join fetch apk_url apk_name = inr apk_path ->
  Install.reports_of (fst (Install.main py_str ADB devices response temp_dir os_path_join fetch sh order ex))
  = map (outcome_of py_str ADB sh devices apk_path) order.
Proof.
  intros Hd Hr Hdl. rewrite (main_reaches_fan_out _ _ _ _ _ _ _ _ _ _ _ _ _ Hd Hr Hdl).
  simpl. rewrite !reports_of_app, reports_of_fan_out.
  destruct ex; simpl; now rewrite app_nil_r.
Qed.

(** ** C1 *)

(** C1: whenever the run reaches the fan-out over a non-empty fleet, for
    every completion order of the futures (any permutation of the
    submissions), the per-device lines reported are exactly one outcome
    per submitted device: as a multiset their device identifiers are the
    submitted list, and there are N of them. *)
Theorem fleet_one_outcome_per_device py_str ADB devices response temp_dir os_path_join fetch sh
    order ex apk_url apk_name apk_path :
  devices <> [] ->
  Install.get_latest_acurast_lite_apk response = inr (apk_url, apk_name) ->
  Install.download_apk temp_dir os_path_join fetch apk_url apk_name = inr apk_path ->
  Permutation order (seq 0 (length devices)) ->
  let reports :=
    Install.reports_of (fst (Install.main py_str ADB devices response temp_dir os_path_join fetch sh order ex)) in
  Permutation reports
    (map (outcome_of py_str ADB sh devices apk_path) (seq 0 (length devices))) /\
  Permutation (map fst reports) devices /\
  length reports = length devices.
Proof.
  intros Hd Hr Hdl Hperm reports.
  assert (Hrep : reports = map (outcome_of py_str ADB sh devices apk_path) order)
    by (apply (main_reports _ _ _ _ _ _ _ _ _ _ _ _ _ Hd Hr Hdl)).
  assert (P : Permutation reports
               (map (outcome_of py_str ADB sh devices apk_path) (seq 0 (length devices))))
    by (rewrite Hrep; now apply Permutation_map).
  split; [exact P|]. split.
  - apply Permutation_map with (f := fst) in P.
    rewrite map_map in P. unfold outcome_of in P. simpl in P.
    unfold Install.nth_device in P. now rewrite map_nth_seq_all in P.
  - rewrite (Permutation_length P), length_map, length_seq. reflexivity.
Qed.

(** ** C4 *)

(** C4: when the bridge process of [install_apk_on_device] completes, the
    outcome is the Success line exactly when the exit code is 0 or stdout
    contains [Success]; otherwise it is the Failed line carrying stderr,
    or stdout when stderr is empty. *)
Theorem install_outcome_classification py_str ADB run device_id apk_path r :
  run (Install.install_cmd ADB device_id apk_path) = Completed r ->
  (Install.install_apk_on_device py_str ADB run device_id apk_path
     = "[" ++ device_id ++ "] Success"
   <-> (returncode r = 0%Z \/ py_in "Success" (stdout r) = true)) /\
  (~ (returncode r = 0%Z \/ py_in "Success" (stdout r) = true) ->
   Install.install_apk_on_device py_str ADB run device_id apk_path
     = "[" ++ device_id ++ "] Failed: "
       ++ (if String.eqb (stderr r) "" then stdout r else stderr r)).
Proof.
  intros Hrun. unfold Install.install_apk_on_device. rewrite Hrun.
  destruct (Z.eqb (returncode r) 0) eqn:Ez;
    destruct (py_in "Success" (stdout r)) eqn:Es; simpl.
  - apply Z.eqb_eq in Ez. split; [tauto|]. intros H; exfalso; tauto.
  - apply Z.eqb_eq in Ez. split; [tauto|]. intros H; exfalso; tauto.
  - split; [tauto|]. intros H; exfalso; tauto.
  - apply Z.eqb_neq in Ez. split.
    + split; [|intros [H|H]; [contradiction|discriminate]].
      intros H. injection H as H. apply str_app_cancel_l in H. discriminate H.
    + reflexivity.
Qed.

(** ** C5 *)

(** C5: when the release lists assets [pre ++ a :: post], no asset of
    [pre] has a name containing [processor-lite] (lower-cased) and ending
    in [.apk], and [a] does, resolution returns [a]'s download URL and
    name. *)
Theorem release_first_match pre a post :
  Forall (fun x => Install.is_lite_apk x = false) pre ->
  Install.is_lite_apk a = true ->
  Install.get_latest_acurast_lite_apk (inr (Some (pre ++ a :: post)%list))
  = inr (Install.browser_download_url a, Install.name a).
Proof.
  intros Hpre Ha. unfold Install.get_latest_acurast_lite_apk.
  induction Hpre as [|x pre Hx Hpre IH]; simpl.
  - now rewrite Ha.
  - rewrite Hx. exact IH.
Qed.

(** ** C6 *)

(** C6: when the release parses but no asset matches, resolution fails
    with the not-found exception rather than returning a reference, and
    [main] stops there: the run performs no bridge call at all and ends
    in its [Script failed] branch. *)
Theorem release_not_found_is_fatal py_str ADB devices assets_opt temp_dir os_path_join fetch sh order ex :
  Forall (fun x => Install.is_lite_apk x = false)
    (match assets_opt with Some l => l | None => [] end) ->
  Install.get_latest_acurast_lite_apk (inr assets_opt) = inl Install.not_found /\
  (devices <> [] ->
   Install.main py_str ADB devices (inr assets_opt) temp_dir os_path_join fetch sh order ex
   = ([], Install.ScriptFailed Install.not_found)).
Proof.
  intros Hnone.
  assert (Hf : Install.get_latest_acurast_lite_apk (inr assets_opt) = inl Install.not_found).
  { unfold Install.get_latest_acurast_lite_apk.
    induction Hnone as [|x l Hx Hl IH]; simpl; [reflexivity|]. now rewrite Hx. }
  split; [exact Hf|].
  intros Hd. unfold Install.main. destruct devices; [congruence|]. now rewrite Hf.
Qed.

(** ** C2 *)

(** C2: in a run that reaches the fan-out, if the bridge call of the i-th
    device raises [e], the run still reports all N outcomes, the i-th
    device's is its Error line, and every other device j whose bridge
    call completes is reported with its own Success or Failed line,
    computed from its own bridge process only. *)
Theorem fleet_error_isolation py_str ADB devices response temp_dir os_path_join fetch sh order ex
    apk_url apk_name apk_path i e :
  devices <> [] ->
  Install.get_latest_acurast_lite_apk response = inr (apk_url, apk_name) ->
  Install.download_apk temp_dir os_path_join fetch apk_url apk_name = inr apk_path ->
  Permutation order (seq 0 (length devices)) ->
  (i < length devices)%nat ->
  sh i (Install.install_cmd ADB (Install.nth_device devices i) apk_path) = Raised e ->
  let reports :=
    Install.reports_of (fst (Install.main py_str ADB devices response temp_dir os_path_join fetch sh order ex)) in
  length reports = length devices /\
  In (Install.nth_device devices i,
      "[" ++ Install.nth_device devices i ++ "] Error: " ++ py_str e) reports /\
  (forall j cp, (j < length devices)%nat -> j <> i ->
   sh j (Install.install_cmd ADB (Install.nth_device devices j) apk_path) = Completed cp ->
   exists line,
     In (Install.nth_device devices j, line) reports /\
     (forall sh', sh' j = sh j ->
        line = snd (outcome_of py_str ADB sh' devices apk_path j)) /\
     (line = "[" ++ Install.nth_device devices j ++ "] Success" \/
      exists msg, line = "[" ++ Install.nth_device devices j ++ "] Failed: " ++ msg)).
Proof.
  intros Hd Hr Hdl Hperm Hi He reports.
  assert (Hrep : reports = map (outcome_of py_str ADB sh devices apk_path) order)
    by (apply (main_reports _ _ _ _ _ _ _ _ _ _ _ _ _ Hd Hr Hdl)).
  assert (Hin : forall k, (k < length devices)%nat ->
            In (outcome_of py_str ADB sh devices apk_path k) reports).
  { intros k Hk. rewrite Hrep. apply in_map.
    apply (Permutation_in _ (Permutation_sym Hperm)). apply in_seq. lia. }
  split; [rewrite Hrep, length_map, (Permutation_length Hperm), length_seq; reflexivity|].
  split.
  - specialize (Hin i Hi). unfold outcome_of, Install.install_apk_on_device in Hin.
    rewrite He in Hin. exact Hin.
  - intros j cp Hj Hji Hc.
    exists (snd (outcome_of py_str ADB sh devices apk_path j)). split; [|split].
    + exact (Hin j Hj).
    + intros sh' Hs. unfold outcome_of. simpl. now rewrite Hs.
    + unfold outcome_of, Install.install_apk_on_device. simpl. rewrite Hc.
      destruct (_ || _); [left; reflexivity | right; eexists; reflexivity].
Qed.

(** ** C9 *)

(** C9: in a run that reaches the fan-out, the trace is the fan-out's
    work, then exactly one cleanup step, then at most the unlink; all N
    per-device outcomes are reported before the cleanup, no device work
    follows it, the file is unlinked only if it still exists, and the run
    completes normally whether or not the file was already gone. *)
Theorem cleanup_once_after_fan_out py_str ADB devices response temp_dir os_path_join fetch sh order
    apk_url apk_name apk_path (exists_at_cleanup : bool) :
  devices <> [] ->
  Install.get_latest_acurast_lite_apk response = inr (apk_url, apk_name) ->
  Install.download_apk temp_dir os_path_join fetch apk_url apk_name = inr apk_path ->
  Permutation order (seq 0 (length devices)) ->
  let (t, r) := Install.main py_str ADB devices response temp_dir os_path_join fetch sh order
                  exists_at_cleanup in
  r = Install.Completed_all /\
  Install.cleanups t = 1%nat /\
  exists pre post,
    t = (pre ++ Install.Cleanup apk_path :: post)%list /\
    length (Install.reports_of pre) = length devices /\
    post = (if exists_at_cleanup then [Install.Unlink apk_path] else []) /\
    forallb (fun ev => negb (Install.is_device_event ev)) post = true.
Proof.
  intros Hd Hr Hdl Hperm.
  rewrite (main_reaches_fan_out _ _ _ _ _ _ _ _ _ _ _ _ _ Hd Hr Hdl).
  split; [reflexivity|]. split.
  - unfold Install.cleanups. rewrite !filter_app, !length_app.
    fold (Install.cleanups (Install.fan_out py_str ADB sh devices apk_path order)).
    rewrite fan_out_no_cleanup. destruct exists_at_cleanup; reflexivity.
  - exists (Install.fan_out py_str ADB sh devices apk_path order),
      (if exists_at_cleanup then [Install.Unlink apk_path] else []).
    split; [reflexivity|]. split; [|split; [reflexivity|destruct exists_at_cleanup; reflexivity]].
    rewrite reports_of_fan_out, length_map, (Permutation_length Hperm), length_seq.
    reflexivity.
Qed.

(** ** Provisioning flow *)

(** Case on every bridge answer and every test the goal branches on. *)
Ltac split_bridge :=
  repeat match goal with
  | |- context [match ?f ?a with Raised _ => _ | Completed _ => _ end] =>
      let E := fresh "E" in destruct (f a) eqn:E
  | |- context [if ?b then _ else _] =>
      let E := fresh "B" in destruct b eqn:E
  end.

Ltac unfold_ssh :=
  unfold Ssh.main, Ssh.check_termux_installed, Ssh.run, Ssh.emit, Ssh.ret,
    Ssh.raise, Ssh.bind.

(** ** C7 *)

(** Exit statuses of the provisioning [main]: 2 with nothing done (no
    file written, no bridge call) when the device list is empty or the
    secret is empty or whitespace; 3 after only the package query when
    the text [com.termux] does not occur in that query's output; every normal return is one
    of these or 0, and 0 comes only after the script file was written
    and the final Enter key event was sent; and when the checks pass, the
    push and chmod exit 0 and no bridge call raises, the exit status is 0. *)
Theorem provisioning_exit_status ADB adb DEVICES secret local_script_path :
  let res := Ssh.main ADB adb DEVICES secret local_script_path in
  ((DEVICES = [] \/ strip_is_empty secret = true) -> res = ([], inr 2%Z)) /\
  (forall d rest cp, DEVICES = d :: rest -> strip_is_empty secret = false ->
     adb (Ssh.pm_list_args ADB d) = Completed cp ->
     py_in "com.termux" (stdout cp) = false ->
     res = ([Ssh.Invoke (Ssh.pm_list_args ADB d)], inr 3%Z)) /\
  (forall n, snd res = inr n ->
     (n = 2%Z /\ (DEVICES = [] \/ strip_is_empty secret = true)) \/
     (n = 3%Z /\ exists d rest cp, DEVICES = d :: rest /\ strip_is_empty secret = false /\
        adb (Ssh.pm_list_args ADB d) = Completed cp /\
        py_in "com.termux" (stdout cp) = false) \/
     (n = 0%Z /\ exists d rest, DEVICES = d :: rest /\
        In (Ssh.WriteFile local_script_path (termux_bash_script secret)) (fst res) /\
        last (fst res) (Ssh.Sleep 0) = Ssh.Invoke (Ssh.keyevent_args ADB d))) /\
  (forall d rest cpq cpp cpc, DEVICES = d :: rest -> strip_is_empty secret = false ->
     adb (Ssh.pm_list_args ADB d) = Completed cpq ->
     py_in "com.termux" (stdout cpq) = true ->
     adb (Ssh.push_args ADB d local_script_path) = Completed cpp -> returncode cpp = 0%Z ->
     adb (Ssh.chmod_args ADB d) = Completed cpc -> returncode cpc = 0%Z ->
     (forall args e, adb args <> Raised e) ->
     Ssh.exit_status (snd res) = 0%Z).
Proof.
  intros res. subst res. split; [|split; [|split]].
  - intros [->|Hs]; [reflexivity|].
    destruct DEVICES as [|d rest]; [reflexivity|]. simpl. now rewrite Hs.
  - intros d rest cp -> Hs Hq Hn. simpl. rewrite Hs.
    unfold_ssh. rewrite Hq. simpl. now rewrite Hn.
  - intros n. destruct DEVICES as [|d rest].
    + simpl. intros H. injection H as <-. left; auto.
    + destruct (strip_is_empty secret) eqn:Hs.
      * simpl. rewrite Hs. intros H. injection H as <-. left; auto.
      * simpl. rewrite Hs. unfold_ssh. split_bridge; simpl; intros H;
          try discriminate H; injection H as <-.
        all: first
          [ right; left; split; [reflexivity|]; exists d, rest; eexists;
            split; [reflexivity|]; split; [reflexivity|];
            split; [eassumption|]; apply negb_true_iff; eassumption
          | right; right; split; [reflexivity|]; exists d, rest;
            split; [reflexivity|]; split; [simpl; auto 4|reflexivity] ].
  - intros d rest cpq cpp cpc -> Hs Hq Hin Hp Hp0 Hc Hc0 Hno. simpl. rewrite Hs.
    unfold_ssh. rewrite Hq. simpl. rewrite Hin. simpl.
    unfold Ssh.push_args, Ssh.chmod_args in *. rewrite Hp, Hc, Hp0, Hc0. simpl.
    split_bridge; simpl; try reflexivity; exfalso; eapply Hno; eassumption.
Qed.

(** C7 (code bug): [check_termux_installed] asks whether the text
    [com.termux] occurs in the output of [pm list packages com.termux].
    On a device where the Termux:API plugin [com.termux.api] is installed
    and Termux ([com.termux]) is not, that output is
    [package:com.termux.api], which contains the text: the check passes,
    the script is written and pushed, and the run exits 0 instead of 3. *)
Lemma termux_check_accepts_plugin_only_device :
  let res := Ssh.main "adb" (Demo.device_adb Demo.plugin_only) ["D1"] "pw" "/tmp/tmpk2j1.sh" in
  ~ In "com.termux" Demo.plugin_only /\
  Demo.pm_list_packages Demo.plugin_only "com.termux" = ("package:com.termux.api" ++ nl)%string /\
  In (Ssh.WriteFile "/tmp/tmpk2j1.sh" (termux_bash_script "pw")) (fst res) /\
  In (Ssh.Invoke (Ssh.push_args "adb" "D1" "/tmp/tmpk2j1.sh")) (fst res) /\
  Ssh.exit_status (snd res) = 0%Z.
Proof.
  cbv zeta. split.
  - intros [H|[H|[]]]; discriminate H.
  - split; [reflexivity|]. split; [|split]; [simpl; auto 20 | simpl; auto 20 | reflexivity].
Qed.

(** ** Fatal bridge steps of the provisioning run *)

Lemma main_push_chmod_fatal ADB adb d rest secret local_script_path cpq cf cpp cpc :
  strip_is_empty secret = false ->
  adb (Ssh.pm_list_args ADB d) = Completed cpq ->
  py_in "com.termux" (stdout cpq) = true ->
  adb [ADB; "-s"; d; "shell"; "am"; "force-stop"; "com.termux"] = Completed cf ->
  adb (Ssh.push_args ADB d local_script_path) = Completed cpp ->
  let pre := [Ssh.Invoke (Ssh.pm_list_args ADB d);
              Ssh.WriteFile local_script_path (termux_bash_script secret);
              Ssh.Invoke [ADB; "-s"; d; "shell"; "am"; "force-stop"; "com.termux"];
              Ssh.Sleep 1000;
              Ssh.Invoke (Ssh.push_args ADB d local_script_path)] in
  (returncode cpp <> 0%Z ->
   Ssh.main ADB adb (d :: rest) secret local_script_path
   = (pre, inl (CalledProcessError (returncode cpp) (Ssh.push_args ADB d local_script_path)))) /\
  (returncode cpp = 0%Z ->
   adb (Ssh.chmod_args ADB d) = Completed cpc -> returncode cpc <> 0%Z ->
   Ssh.main ADB adb (d :: rest) secret local_script_path
   = ((pre ++ [Ssh.Invoke (Ssh.chmod_args ADB d)])%list,
      inl (CalledProcessError (returncode cpc) (Ssh.chmod_args ADB d)))).
Proof.
  intros Hs Hq Hin Hf Hp pre. subst pre.
  simpl. rewrite Hs. unfold_ssh. rewrite Hq. simpl. rewrite Hin. simpl.
  unfold Ssh.push_args, Ssh.chmod_args in *. rewrite Hf. simpl. rewrite Hp. split.
  - intros H. apply Z.eqb_neq in H. simpl. rewrite H. reflexivity.
  - intros H0 Hc H. rewrite H0. simpl. rewrite Hc. apply Z.eqb_neq in H. simpl. rewrite H.
    reflexivity.
Qed.

(** ** C8 *)

(** A bridge that answers every query for Termux and fails every push. *)
Definition push_fails_adb (args : list string) : bridge_call :=
  match args with
  | _ :: _ :: _ :: "push" :: _ =>
      Completed {| returncode := 1; stdout := ""; stderr := "adb: error: failed to copy" |}
  | _ => Completed {| returncode := 0; stdout := "package:com.termux"; stderr := "" |}
  end.

(** C8 (counterexample): [run] with its default [check=True], as the
    push step calls it, raises [CalledProcessError] on a non-zero exit
    instead of returning the captured result; in [main] that exception
    escapes and the process exits with status 1. *)
Lemma bridge_invoker_raises_on_nonzero_exit :
  let push := Ssh.push_args "adb" "D1" "/tmp/tmpk2j1.sh" in
  Ssh.run push_fails_adb push true
    = ([Ssh.Invoke push], inl (CalledProcessError 1 push)) /\
  ~ (exists cp, snd (Ssh.run push_fails_adb push true) = inr cp) /\
  snd (Ssh.main "adb" push_fails_adb ["D1"] "s3cret" "/tmp/tmpk2j1.sh")
    = inl (CalledProcessError 1 push) /\
  Ssh.exit_status (snd (Ssh.main "adb" push_fails_adb ["D1"] "s3cret" "/tmp/tmpk2j1.sh")) = 1%Z.
Proof.
  split; [reflexivity|]. split; [|split; reflexivity].
  intros [cp H]. discriminate H.
Qed.

(** C8 (as the code has it): a bridge call made with [check=False]
    returns the completed process whatever its exit code; with
    [check=True] (the default of [run]) it returns it on exit 0 and
    raises [CalledProcessError] otherwise; the install flow's own
    [subprocess.run], which has no [check], turns a completed process
    into a Success or Failed line, never an Error. In the provisioning
    [main], push and chmod are the [check=True] calls: a non-zero exit of
    either ends the run at that call with [CalledProcessError] and exit
    status 1; the package query, force-stop, launch and both input calls
    are [check=False]: whatever they exit with, the run goes on, and it
    exits 0 once push and chmod exit 0 and no call raises. *)
Theorem bridge_invoker_check_semantics adb args cp :
  adb args = Completed cp ->
  Ssh.run adb args false = ([Ssh.Invoke args], inr cp) /\
  (returncode cp = 0%Z -> Ssh.run adb args true = ([Ssh.Invoke args], inr cp)) /\
  (returncode cp <> 0%Z ->
   Ssh.run adb args true = ([Ssh.Invoke args], inl (CalledProcessError (returncode cp) args))) /\
  (forall py_str ADB (run : string -> bridge_call) device_id apk_path,
   run (Install.install_cmd ADB device_id apk_path) = Completed cp ->
   Install.install_apk_on_device py_str ADB run device_id apk_path = "[" ++ device_id ++ "] Success" \/
   exists msg, Install.install_apk_on_device py_str ADB run device_id apk_path
               = "[" ++ device_id ++ "] Failed: " ++ msg) /\
  (forall ADB adb' d rest secret local_script_path cpq cf cpp cpc,
   strip_is_empty secret = false ->
   adb' (Ssh.pm_list_args ADB d) = Completed cpq ->
   py_in "com.termux" (stdout cpq) = true ->
   adb' [ADB; "-s"; d; "shell"; "am"; "force-stop"; "com.termux"] = Completed cf ->
   adb' (Ssh.push_args ADB d local_script_path) = Completed cpp ->
   let res := Ssh.main ADB adb' (d :: rest) secret local_script_path in
   (returncode cpp <> 0%Z ->
    snd res = inl (CalledProcessError (returncode cpp) (Ssh.push_args ADB d local_script_path)) /\
    last (fst res) (Ssh.Sleep 0) = Ssh.Invoke (Ssh.push_args ADB d local_script_path) /\
    Ssh.exit_status (snd res) = 1%Z) /\
   (returncode cpp = 0%Z ->
    adb' (Ssh.chmod_args ADB d) = Completed cpc -> returncode cpc <> 0%Z ->
    snd res = inl (CalledProcessError (returncode cpc) (Ssh.chmod_args ADB d)) /\
    last (fst res) (Ssh.Sleep 0) = Ssh.Invoke (Ssh.chmod_args ADB d) /\
    Ssh.exit_status (snd res) = 1%Z)) /\
  (forall ADB adb' d rest secret local_script_path cpq cpp cpc,
   strip_is_empty secret = false ->
   adb' (Ssh.pm_list_args ADB d) = Completed cpq ->
   py_in "com.termux" (stdout cpq) = true ->
   adb' (Ssh.push_args ADB d local_script_path) = Completed cpp -> returncode cpp = 0%Z ->
   adb' (Ssh.chmod_args ADB d) = Completed cpc -> returncode cpc = 0%Z ->
   (forall args e, adb' args <> Raised e) ->
   Ssh.exit_status (snd (Ssh.main ADB adb' (d :: rest) secret local_script_path)) = 0%Z).
Proof.
  intros Ha. split; [|split; [|split; [|split; [|split]]]].
  1-3: unfold Ssh.run, Ssh.emit, Ssh.bind, Ssh.ret, Ssh.raise; rewrite Ha; simpl.
  - reflexivity.
  - intros H0. now rewrite H0.
  - intros H0. apply Z.eqb_neq in H0. now rewrite H0.
  - intros py_str ADB run device_id apk_path Hr.
    unfold Install.install_apk_on_device. rewrite Hr.
    destruct (_ || _); [left; reflexivity | right; eexists; reflexivity].
  - intros ADB adb' d rest secret local_script_path cpq cf cpp cpc Hs Hq Hin Hf Hp res.
    destruct (main_push_chmod_fatal ADB adb' d rest secret local_script_path cpq cf cpp cpc
                Hs Hq Hin Hf Hp) as [H1 H2].
    subst res. split.
    + intros H. rewrite (H1 H). split; [reflexivity|]. split; reflexivity.
    + intros H0 Hc H. rewrite (H2 H0 Hc H). split; [reflexivity|].
      split; [|reflexivity]. simpl. reflexivity.
  - intros ADB adb' d rest secret local_script_path cpq cpp cpc Hs Hq Hin Hp Hp0 Hc Hc0 Hno.
    destruct (provisioning_exit_status ADB adb' (d :: rest) secret local_script_path)
      as (_ & _ & _ & H4).
    exact (H4 d rest cpq cpp cpc eq_refl Hs Hq Hin Hp Hp0 Hc Hc0 Hno).
Qed.

(** ** C10 *)

(** C10: the provisioning [main] reads only the first device of the list:
    two runs whose lists share their first identifier do the same bridge
    calls, write the same file and end the same way, and every bridge
    call of the run targets that first identifier ([-s d]). *)
Theorem provisioning_only_first_device ADB adb d rest1 rest2 secret local_script_path :
  Ssh.main ADB adb (d :: rest1) secret local_script_path
  = Ssh.main ADB adb (d :: rest2) secret local_script_path /\
  (forall args, In (Ssh.Invoke args) (fst (Ssh.main ADB adb (d :: rest1) secret local_script_path)) ->
   exists tl, args = ADB :: "-s" :: d :: tl).
Proof.
  split; [reflexivity|].
  intros args. unfold_ssh.
  split_bridge; simpl; intros H;
    repeat (destruct H as [H|H];
            [try (injection H as <-; eexists; reflexivity); try discriminate H|]);
    contradiction.
Qed.

(* ================================================================== *)
(** * Instances at sample inputs *)

Lemma demo_order_perm : Permutation Demo.order (seq 0 (length Demo.devices)).
Proof. exact (Permutation_app_comm [2%nat] [0%nat; 1%nat]). Qed.

Lemma fleet_one_outcome_per_device_witness :
  let reports := Install.reports_of (fst (Install.main Demo.exc_text "adb" Demo.devices
                   Demo.release "/tmp" Install.posixpath_join Demo.fetch_ok Demo.sh Demo.order true)) in
  Permutation reports
    (map (outcome_of Demo.exc_text "adb" Demo.sh Demo.devices Demo.apk_path) (seq 0 3)) /\
  Permutation (map fst reports) Demo.devices /\ length reports = 3%nat.
Proof.
  exact (fleet_one_outcome_per_device Demo.exc_text "adb" Demo.devices Demo.release "/tmp" Install.posixpath_join
           Demo.fetch_ok Demo.sh Demo.order true
           "https://example.org/processor-lite-v2.apk" "processor-lite-v2.apk" Demo.apk_path
           ltac:(discriminate) eq_refl eq_refl demo_order_perm).
Defined.

Lemma fleet_error_isolation_witness :
  let reports := Install.reports_of (fst (Install.main Demo.exc_text "adb" Demo.devices
                   Demo.release "/tmp" Install.posixpath_join Demo.fetch_ok Demo.sh Demo.order true)) in
  length reports = length Demo.devices /\
  In ("D2", "[D2] Error: device 2 unreachable") reports /\
  (forall j cp, (j < length Demo.devices)%nat -> j <> 1%nat ->
   Demo.sh j (Install.install_cmd "adb" (Install.nth_device Demo.devices j) Demo.apk_path)
     = Completed cp ->
   exists line,
     In (Install.nth_device Demo.devices j, line) reports /\
     (forall sh', sh' j = Demo.sh j ->
        line = snd (outcome_of Demo.exc_text "adb" sh' Demo.devices Demo.apk_path j)) /\
     (line = "[" ++ Install.nth_device Demo.devices j ++ "] Success" \/
      exists msg, line = "[" ++ Install.nth_device Demo.devices j ++ "] Failed: " ++ msg)).
Proof.
  exact (fleet_error_isolation Demo.exc_text "adb" Demo.devices Demo.release "/tmp" Install.posixpath_join
           Demo.fetch_ok Demo.sh Demo.order true
           "https://example.org/processor-lite-v2.apk" "processor-lite-v2.apk" Demo.apk_path
           1%nat (PyException "OSError" "device 2 unreachable")
           ltac:(discriminate) eq_refl eq_refl demo_order_perm ltac:(simpl; lia) eq_refl).
Defined.

Lemma install_outcome_classification_witness :
  (Install.install_apk_on_device Demo.exc_text "adb" Demo.marker_run "D1" Demo.apk_path
     = "[D1] Success"
   <-> (1%Z = 0%Z \/ py_in "Success" "Performing Streamed Install Success" = true)) /\
  (~ (1%Z = 0%Z \/ py_in "Success" "Performing Streamed Install Success" = true) ->
   Install.install_apk_on_device Demo.exc_text "adb" Demo.marker_run "D1" Demo.apk_path
     = "[D1] Failed: Performing Streamed Install Success").
Proof.
  exact (install_outcome_classification Demo.exc_text "adb" Demo.marker_run "D1" Demo.apk_path
           {| returncode := 1; stdout := "Performing Streamed Install Success"; stderr := "" |}
           eq_refl).
Defined.

Lemma release_first_match_witness :
  Install.get_latest_acurast_lite_apk Demo.release
  = inr ("https://example.org/processor-lite-v2.apk", "processor-lite-v2.apk").
Proof.
  exact (release_first_match [Demo.app_v1] Demo.lite_v2 [Demo.other]
           (Forall_cons _ (eq_refl : Install.is_lite_apk Demo.app_v1 = false) (Forall_nil _))
           eq_refl).
Defined.

Lemma release_not_found_is_fatal_witness :
  Install.get_latest_acurast_lite_apk (inr (Some [Demo.app_v1; Demo.other]))
    = inl Install.not_found /\
  (Demo.devices <> [] ->
   Install.main Demo.exc_text "adb" Demo.devices (inr (Some [Demo.app_v1; Demo.other]))
     "/tmp" Install.posixpath_join Demo.fetch_ok Demo.sh Demo.order true
   = ([], Install.ScriptFailed Install.not_found)).
Proof.
  exact (release_not_found_is_fatal Demo.exc_text "adb" Demo.devices
           (Some [Demo.app_v1; Demo.other]) "/tmp" Install.posixpath_join Demo.fetch_ok Demo.sh Demo.order true
           ltac:(repeat constructor)).
Defined.

Lemma cleanup_once_after_fan_out_witness :
  let (t, r) := Install.main Demo.exc_text "adb" Demo.devices Demo.release "/tmp" Install.posixpath_join
                  Demo.fetch_ok Demo.sh Demo.order false in
  r = Install.Completed_all /\
  Install.cleanups t = 1%nat /\
  exists pre post,
    t = (pre ++ Install.Cleanup Demo.apk_path :: post)%list /\
    length (Install.reports_of pre) = length Demo.devices /\
    post = [] /\
    forallb (fun ev => negb (Install.is_device_event ev)) post = true.
Proof.
  exact (cleanup_once_after_fan_out Demo.exc_text "adb" Demo.devices Demo.release "/tmp" Install.posixpath_join
           Demo.fetch_ok Demo.sh Demo.order
           "https://example.org/processor-lite-v2.apk" "processor-lite-v2.apk" Demo.apk_path
           false ltac:(discriminate) eq_refl eq_refl demo_order_perm).
Defined.

Lemma bridge_invoker_check_semantics_witness :
  let push := Ssh.push_args "adb" "D1" "/tmp/tmpk2j1.sh" in
  let cp := {| returncode := 1; stdout := ""; stderr := "adb: error: failed to copy" |} in
  push_fails_adb push = Completed cp /\
  Ssh.run push_fails_adb push false = ([Ssh.Invoke push], inr cp) /\
  (returncode cp = 0%Z -> Ssh.run push_fails_adb push true = ([Ssh.Invoke push], inr cp)) /\
  (returncode cp <> 0%Z ->
   Ssh.run push_fails_adb push true = ([Ssh.Invoke push], inl (CalledProcessError (returncode cp) push))) /\
  (forall py_str ADB (run : string -> bridge_call) device_id apk_path,
   run (Install.install_cmd ADB device_id apk_path) = Completed cp ->
   Install.install_apk_on_device py_str ADB run device_id apk_path = "[" ++ device_id ++ "] Success" \/
   exists msg, Install.install_apk_on_device py_str ADB run device_id apk_path
               = "[" ++ device_id ++ "] Failed: " ++ msg) /\
  (forall ADB adb' d rest secret local_script_path cpq cf cpp cpc,
   strip_is_empty secret = false ->
   adb' (Ssh.pm_list_args ADB d) = Completed cpq ->
   py_in "com.termux" (stdout cpq) = true ->
   adb' [ADB; "-s"; d; "shell"; "am"; "force-stop"; "com.termux"] = Completed cf ->
   adb' (Ssh.push_args ADB d local_script_path) = Completed cpp ->
   let res := Ssh.main ADB adb' (d :: rest) secret local_script_path in
   (returncode cpp <> 0%Z ->
    snd res = inl (CalledProcessError (returncode cpp) (Ssh.push_args ADB d local_script_path)) /\
    last (fst res) (Ssh.Sleep 0) = Ssh.Invoke (Ssh.push_args ADB d local_script_path) /\
    Ssh.exit_status (snd res) = 1%Z) /\
   (returncode cpp = 0%Z ->
    adb' (Ssh.chmod_args ADB d) = Completed cpc -> returncode cpc <> 0%Z ->
    snd res = inl (CalledProcessError (returncode cpc) (Ssh.chmod_args ADB d)) /\
    last (fst res) (Ssh.Sleep 0) = Ssh.Invoke (Ssh.chmod_args ADB d) /\
    Ssh.exit_status (snd res) = 1%Z)) /\
  (forall ADB adb' d rest secret local_script_path cpq cpp cpc,
   strip_is_empty secret = false ->
   adb' (Ssh.pm_list_args ADB d) = Completed cpq ->
   py_in "com.termux" (stdout cpq) = true ->
   adb' (Ssh.push_args ADB d local_script_path) = Completed cpp -> returncode cpp = 0%Z ->
   adb' (Ssh.chmod_args ADB d) = Completed cpc -> returncode cpc = 0%Z ->
   (forall args e, adb' args <> Raised e) ->
   Ssh.exit_status (snd (Ssh.main ADB adb' (d :: rest) secret local_script_path)) = 0%Z).
Proof.
  split; [reflexivity|].
  exact (bridge_invoker_check_semantics push_fails_adb (Ssh.push_args "adb" "D1" "/tmp/tmpk2j1.sh")
           {| returncode := 1; stdout := ""; stderr := "adb: error: failed to copy" |} eq_refl).
Defined.

(* ================================================================== *)
(** * Further properties of the code *)

(** ** String lemmas *)

Lemma str_length_app (a b : string) :
  String.length (a ++ b) = (String.length a + String.length b)%nat.
Proof. induction a as [|c a IH]; simpl; auto. Qed.

Lemma substring_0_length (s : string) : substring 0 (String.length s) s = s.
Proof. induction s as [|c s IH]; simpl; [reflexivity | now rewrite IH]. Qed.

Lemma substring_app (p s : string) :
  substring (String.length p) (String.length s) (p ++ s) = s.
Proof.
  induction p as [|c p IH]; simpl; [apply substring_0_length|].
  destruct (String.length s); exact IH.
Qed.

Lemma endswith_app (p s : string) : endswith (p ++ s) s = true.
Proof.
  unfold endswith. rewrite str_length_app.
  replace (String.length p + String.length s - String.length s)%nat with (String.length p) by lia.
  rewrite substring_app, String.eqb_refl. apply andb_true_intro; split; [|reflexivity].
  apply Nat.leb_le. lia.
Qed.

Lemma endswith_app_eq (p s t : string) :
  String.length s = String.length t -> endswith (p ++ s) t = String.eqb s t.
Proof.
  intros H. unfold endswith. rewrite str_length_app, <- H.
  replace (String.length p + String.length s - String.length s)%nat with (String.length p) by lia.
  rewrite substring_app. replace (String.length s <=? String.length p + String.length s)%nat
    with true by (symmetry; apply Nat.leb_le; lia). reflexivity.
Qed.

Lemma startswith_app (a b : string) : startswith (a ++ b) a = true.
Proof. induction a as [|c a IH]; simpl; [destruct b; reflexivity | now rewrite Ascii.eqb_refl]. Qed.

Lemma py_in_app (sub a b : string) : py_in sub (a ++ sub ++ b) = true.
Proof.
  induction a as [|c a IH]; simpl.
  - destruct sub; simpl; [destruct b; reflexivity|]. rewrite Ascii.eqb_refl, startswith_app. reflexivity.
  - rewrite IH. apply orb_true_r.
Qed.

Lemma lower_app (a b : string) : lower (a ++ b) = lower a ++ lower b.
Proof. induction a as [|c a IH]; simpl; [reflexivity | now rewrite IH]. Qed.

(** A string shlex quotes, followed by any text that starts with a shell
    delimiter, reads back as one word equal to the original. *)
Lemma quote_roundtrip (s : string) (c : ascii) (t : string) :
  sh_delim c = true ->
  sh_word Unq (shlex_quote s ++ String c t) = Some (s, String c t).
Proof.
  intros Hc.
  assert (Ht : sh_word Unq (String c t) = Some (EmptyString, String c t))
    by (simpl; now rewrite Hc).
  unfold shlex_quote. destruct s as [|c0 s0] eqn:Es.
  - simpl. now rewrite Hc.
  - rewrite <- Es. destruct (all_safe s) eqn:Hs.
    + rewrite sh_word_safe, Ht by exact Hs. simpl. now rewrite str_app_nil_r.
    + rewrite str_app_assoc. simpl.
      rewrite str_app_assoc, sh_word_single_quoted, Ht.
      simpl. now rewrite str_app_nil_r.
Qed.

(** ** Install flow *)

(** When fetching or parsing the release fails with [e], resolution
    re-raises [e] unchanged, and [main] ends in its Script failed branch
    with [e] before any bridge call. *)
Theorem install_release_error_fatal py_str ADB devices e temp_dir os_path_join fetch sh order ex :
  devices <> [] ->
  Install.get_latest_acurast_lite_apk (inl e) = inl e /\
  Install.main py_str ADB devices (inl e) temp_dir os_path_join fetch sh order ex = ([], Install.ScriptFailed e).
Proof. intros Hd. split; [reflexivity|]. destruct devices; [congruence|reflexivity]. Qed.

(** When the download fails with [e], [main] ends in its Script failed
    branch with [e]: no device is touched and no cleanup step runs. *)
Theorem install_download_error_fatal py_str ADB devices response temp_dir os_path_join fetch sh order ex
    apk_url apk_name e :
  devices <> [] ->
  Install.get_latest_acurast_lite_apk response = inr (apk_url, apk_name) ->
  fetch apk_url (os_path_join temp_dir apk_name) = Some e ->
  Install.main py_str ADB devices response temp_dir os_path_join fetch sh order ex = ([], Install.ScriptFailed e).
Proof.
  intros Hd Hr Hf. unfold Install.main. destruct devices; [congruence|].
  rewrite Hr. unfold Install.download_apk. now rewrite Hf.
Qed.

(** Whatever resolution returns comes from the listing: an asset with
    that URL and name whose lower-cased name contains [processor-lite]
    and whose name ends with [.apk]. *)
Theorem release_result_sound assets_opt apk_url apk_name :
  Install.get_latest_acurast_lite_apk (inr assets_opt) = inr (apk_url, apk_name) ->
  exists a, In a (match assets_opt with Some l => l | None => [] end) /\
    Install.browser_download_url a = apk_url /\ Install.name a = apk_name /\
    py_in "processor-lite" (lower apk_name) = true /\ endswith apk_name ".apk" = true.
Proof.
  unfold Install.get_latest_acurast_lite_apk.
  generalize (match assets_opt with Some l => l | None => [] end) as l.
  intros l. induction l as [|a l IH]; simpl; [discriminate|].
  destruct (Install.is_lite_apk a) eqn:Ha.
  - intros H. injection H as <- <-. exists a. split; [left; reflexivity|].
    unfold Install.is_lite_apk in Ha. apply andb_prop in Ha as [H1 H2]. auto.
  - intros H. destruct (IH H) as (a' & Hin & Hrest). exists a'. auto.
Qed.

(** The marker test ignores case: any spelling [m] of [processor-lite]
    (upper, lower or mixed case) inside a name ending in [.apk] matches. *)
Theorem lite_marker_any_case (p m s url : string) :
  lower m = "processor-lite" ->
  Install.is_lite_apk {| Install.name := p ++ m ++ s ++ ".apk";
                         Install.browser_download_url := url |} = true.
Proof.
  intros Hm. unfold Install.is_lite_apk. simpl.
  rewrite !lower_app, Hm, py_in_app.
  rewrite <- !str_app_assoc, endswith_app. reflexivity.
Qed.

(** The extension test does not ignore case: no asset whose name ends in
    [.APK] is ever selected. *)
Theorem lite_extension_case_sensitive (p url : string) :
  Install.is_lite_apk {| Install.name := p ++ ".APK"; Install.browser_download_url := url |}
  = false.
Proof.
  unfold Install.is_lite_apk. simpl Install.name.
  rewrite endswith_app_eq by reflexivity. apply andb_false_r.
Qed.

(** In a run that reaches the fan-out, the bridge is run exactly once per
    submitted device: the device ids of the bridge calls are the submitted
    list up to order (one call per entry, duplicates included), each call
    is [adb -s <device> install -r] on the one downloaded file, and the
    cleanup step acts on that same file. *)
Theorem fan_out_installs_one_artifact py_str ADB devices response temp_dir os_path_join fetch sh order ex
    apk_url apk_name apk_path :
  devices <> [] ->
  Install.get_latest_acurast_lite_apk response = inr (apk_url, apk_name) ->
  Install.download_apk temp_dir os_path_join fetch apk_url apk_name = inr apk_path ->
  Permutation order (seq 0 (length devices)) ->
  let t := fst (Install.main py_str ADB devices response temp_dir os_path_join fetch sh order ex) in
  Permutation (Install.bridges_of t) devices /\
  length (filter (fun ev => match ev with Install.Bridge _ _ => true | _ => false end) t)
    = length devices /\
  (forall d cmd, In (Install.Bridge d cmd) t -> cmd = Install.install_cmd ADB d apk_path) /\
  (forall p, In (Install.Cleanup p) t \/ In (Install.Unlink p) t -> p = apk_path).
Proof.
  intros Hd Hr Hdl Hperm t. subst t.
  rewrite (main_reaches_fan_out _ _ _ _ _ _ _ _ _ _ _ _ _ Hd Hr Hdl). simpl fst.
  assert (Hb : forall ord,
    length (filter (fun ev => match ev with Install.Bridge _ _ => true | _ => false end)
              (Install.fan_out py_str ADB sh devices apk_path ord)) = length ord).
  { induction ord as [|i ord IH]; [reflexivity|]. unfold Install.fan_out in *. simpl.
    f_equal. exact IH. }
  assert (Hin : forall ev, In ev (Install.fan_out py_str ADB sh devices apk_path order) ->
    (exists d, ev = Install.Bridge d (Install.install_cmd ADB d apk_path)) \/
    (exists d l, ev = Install.Report d l)).
  { intros ev H. unfold Install.fan_out in H. apply in_flat_map in H as (i & _ & H).
    destruct H as [<-|[<-|[]]]; [left|right]; eauto. }
  split; [|split; [|split]].
  - rewrite bridges_of_app, bridges_of_fan_out.
    replace (Install.bridges_of (Install.Cleanup apk_path
               :: (if ex then [Install.Unlink apk_path] else [])))
      with (@nil string) by (destruct ex; reflexivity).
    rewrite app_nil_r.
    rewrite <- (map_nth_seq_all devices "") at 2.
    apply Permutation_map. exact Hperm.
  - rewrite !filter_app, !length_app, Hb, (Permutation_length Hperm), length_seq.
    destruct ex; simpl; lia.
  - intros d cmd H. apply in_app_or in H as [H|H].
    + destruct (Hin _ H) as [(d' & E)|(d' & l & E)]; [injection E as <- <-; reflexivity|discriminate].
    + destruct ex; simpl in H; repeat destruct H as [H|H]; try discriminate; contradiction.
  - intros p [H|H]; apply in_app_or in H as [H|H];
      try (destruct (Hin _ H) as [(d' & E)|(d' & l & E)]; discriminate);
      destruct ex; simpl in H; repeat destruct H as [H|H];
      try (injection H as ->; reflexivity); try discriminate; contradiction.
Qed.

(** ** Provisioning flow *)

(** When the package query itself raises (say, the adb executable is
    missing), [main] does not report a missing Termux: the exception
    escapes after that one call and the process exits with status 1. *)
Theorem provisioning_query_error_escapes ADB adb d rest secret local_script_path e :
  strip_is_empty secret = false ->
  adb (Ssh.pm_list_args ADB d) = Raised e ->
  Ssh.main ADB adb (d :: rest) secret local_script_path
    = ([Ssh.Invoke (Ssh.pm_list_args ADB d)], inl e) /\
  Ssh.exit_status (snd (Ssh.main ADB adb (d :: rest) secret local_script_path)) = 1%Z.
Proof.
  intros Hs He. simpl. rewrite Hs. unfold_ssh.
  rewrite He. split; reflexivity.
Qed.

(** The full step sequence of a run whose checks pass, whose push and
    chmod exit 0 and where no bridge call raises: package query, script
    file written, force-stop, 1 s pause, push, chmod, app launch, 4 s
    pause, typed command, 0.5 s pause, Enter key; status 0. The exit
    codes of the best-effort steps (force-stop, launch, typing, Enter)
    change nothing. *)
Theorem provisioning_success_trace ADB adb d rest secret local_script_path cpq cpp cpc :
  strip_is_empty secret = false ->
  adb (Ssh.pm_list_args ADB d) = Completed cpq ->
  py_in "com.termux" (stdout cpq) = true ->
  adb (Ssh.push_args ADB d local_script_path) = Completed cpp -> returncode cpp = 0%Z ->
  adb (Ssh.chmod_args ADB d) = Completed cpc -> returncode cpc = 0%Z ->
  (forall args e, adb args <> Raised e) ->
  Ssh.main ADB adb (d :: rest) secret local_script_path =
  ([Ssh.Invoke (Ssh.pm_list_args ADB d);
    Ssh.WriteFile local_script_path (termux_bash_script secret);
    Ssh.Invoke [ADB; "-s"; d; "shell"; "am"; "force-stop"; "com.termux"];
    Ssh.Sleep 1000;
    Ssh.Invoke (Ssh.push_args ADB d local_script_path);
    Ssh.Invoke (Ssh.chmod_args ADB d);
    Ssh.Invoke [ADB; "-s"; d; "shell"; "am"; "start"; "-n"; "com.termux/.app.TermuxActivity"];
    Ssh.Sleep 4000;
    Ssh.Invoke [ADB; "-s"; d; "shell"; "input"; "text"; "bash%s/data/local/tmp/setup_ssh.sh"];
    Ssh.Sleep 500;
    Ssh.Invoke (Ssh.keyevent_args ADB d)], inr 0%Z).
Proof.
  intros Hs Hq Hin Hp Hp0 Hc Hc0 Hno. simpl. rewrite Hs.
  unfold_ssh. rewrite Hq. simpl. rewrite Hin. simpl.
  unfold Ssh.push_args, Ssh.chmod_args in *. rewrite Hp, Hc, Hp0, Hc0. simpl.
  split_bridge; simpl; try reflexivity; exfalso; eapply Hno; eassumption.
Qed.

(** Push and chmod are fatal: when the push exits non-zero the run ends
    right there with [CalledProcessError] (no chmod, no launch, no
    typing), and likewise when the chmod exits non-zero after a
    successful push. *)
Theorem provisioning_push_chmod_fatal ADB adb d rest secret local_script_path cpq cf cpp cpc :
  strip_is_empty secret = false ->
  adb (Ssh.pm_list_args ADB d) = Completed cpq ->
  py_in "com.termux" (stdout cpq) = true ->
  adb [ADB; "-s"; d; "shell"; "am"; "force-stop"; "com.termux"] = Completed cf ->
  adb (Ssh.push_args ADB d local_script_path) = Completed cpp ->
  let pre := [Ssh.Invoke (Ssh.pm_list_args ADB d);
              Ssh.WriteFile local_script_path (termux_bash_script secret);
              Ssh.Invoke [ADB; "-s"; d; "shell"; "am"; "force-stop"; "com.termux"];
              Ssh.Sleep 1000;
              Ssh.Invoke (Ssh.push_args ADB d local_script_path)] in
  (returncode cpp <> 0%Z ->
   Ssh.main ADB adb (d :: rest) secret local_script_path
   = (pre, inl (CalledProcessError (returncode cpp) (Ssh.push_args ADB d local_script_path)))) /\
  (returncode cpp = 0%Z ->
   adb (Ssh.chmod_args ADB d) = Completed cpc -> returncode cpc <> 0%Z ->
   Ssh.main ADB adb (d :: rest) secret local_script_path
   = ((pre ++ [Ssh.Invoke (Ssh.chmod_args ADB d)])%list,
      inl (CalledProcessError (returncode cpc) (Ssh.chmod_args ADB d)))).
Proof. exact (main_push_chmod_fatal ADB adb d rest secret local_script_path cpq cf cpp cpc). Qed.

(** The script file is written only after all three checks passed
    (a device is given, the secret is not blank, and the text
    [com.termux] occurs in the output of the first device's package
    query), at the [NamedTemporaryFile] path, and it holds the script
    rendered from the secret exactly as given (not stripped). *)
Theorem provisioning_writes_script_after_checks ADB adb DEVICES secret local_script_path p c :
  In (Ssh.WriteFile p c) (fst (Ssh.main ADB adb DEVICES secret local_script_path)) ->
  p = local_script_path /\ c = termux_bash_script secret /\
  exists d rest cp, DEVICES = d :: rest /\ strip_is_empty secret = false /\
    adb (Ssh.pm_list_args ADB d) = Completed cp /\ py_in "com.termux" (stdout cp) = true.
Proof.
  destruct DEVICES as [|d rest]; [simpl; tauto|].
  destruct (strip_is_empty secret) eqn:Hs; simpl; rewrite Hs; [simpl; tauto|].
  unfold_ssh. split_bridge; simpl; intros H;
    repeat (destruct H as [H|H]; [try discriminate H|]); try contradiction;
    injection H as <- <-; (split; [reflexivity|]; split; [reflexivity|]);
    exists d, rest; eexists; (split; [reflexivity|]); (split; [reflexivity|]);
    (split; [eassumption|]); apply negb_false_iff; eassumption.
Qed.

(* ================================================================== *)
(** * Further instances at sample inputs *)

Lemma quote_roundtrip_witness :
  sh_word Unq (shlex_quote ("it's a " ++ dq ++ "test" ++ dq) ++ String "010"%char script_tail)
  = Some ("it's a " ++ dq ++ "test" ++ dq, String "010"%char script_tail).
Proof. exact (quote_roundtrip _ "010"%char script_tail eq_refl). Defined.

Lemma install_release_error_fatal_witness :
  let e := PyException "URLError" "<urlopen error timed out>" in
  Install.get_latest_acurast_lite_apk (inl e) = inl e /\
  Install.main Demo.exc_text "adb" Demo.devices (inl e) "/tmp" Install.posixpath_join Demo.fetch_ok Demo.sh Demo.order true
  = ([], Install.ScriptFailed e).
Proof.
  exact (install_release_error_fatal Demo.exc_text "adb" Demo.devices
           (PyException "URLError" "<urlopen error timed out>") "/tmp" Install.posixpath_join Demo.fetch_ok Demo.sh
           Demo.order true ltac:(discriminate)).
Defined.

Lemma install_download_error_fatal_witness :
  Install.main Demo.exc_text "adb" Demo.devices Demo.release "/tmp" Install.posixpath_join
    (fun _ _ => Some (PyException "OSError" "No space left on device")) Demo.sh Demo.order true
  = ([], Install.ScriptFailed (PyException "OSError" "No space left on device")).
Proof.
  exact (install_download_error_fatal Demo.exc_text "adb" Demo.devices Demo.release "/tmp" Install.posixpath_join
           (fun _ _ => Some (PyException "OSError" "No space left on device")) Demo.sh Demo.order
           true "https://example.org/processor-lite-v2.apk" "processor-lite-v2.apk"
           (PyException "OSError" "No space left on device") ltac:(discriminate) eq_refl eq_refl).
Defined.

Lemma release_result_sound_witness :
  exists a, In a [Demo.app_v1; Demo.lite_v2; Demo.other] /\
    Install.browser_download_url a = "https://example.org/processor-lite-v2.apk" /\
    Install.name a = "processor-lite-v2.apk" /\
    py_in "processor-lite" (lower "processor-lite-v2.apk") = true /\
    endswith "processor-lite-v2.apk" ".apk" = true.
Proof.
  exact (release_result_sound (Some [Demo.app_v1; Demo.lite_v2; Demo.other])
           "https://example.org/processor-lite-v2.apk" "processor-lite-v2.apk" eq_refl).
Defined.

Lemma lite_marker_any_case_witness :
  Install.is_lite_apk {| Install.name := "acurast-" ++ "Processor-LITE" ++ "-v3" ++ ".apk";
                         Install.browser_download_url := "u" |} = true.
Proof. exact (lite_marker_any_case "acurast-" "Processor-LITE" "-v3" "u" eq_refl). Defined.

Lemma fan_out_installs_one_artifact_witness :
  let t := fst (Install.main Demo.exc_text "adb" Demo.devices Demo.release "/tmp" Install.posixpath_join
                  Demo.fetch_ok Demo.sh Demo.order true) in
  Permutation (Install.bridges_of t) Demo.devices /\
  length (filter (fun ev => match ev with Install.Bridge _ _ => true | _ => false end) t) = 3%nat /\
  (forall d cmd, In (Install.Bridge d cmd) t -> cmd = Install.install_cmd "adb" d Demo.apk_path) /\
  (forall p, In (Install.Cleanup p) t \/ In (Install.Unlink p) t -> p = Demo.apk_path).
Proof.
  exact (fan_out_installs_one_artifact Demo.exc_text "adb" Demo.devices Demo.release "/tmp" Install.posixpath_join
           Demo.fetch_ok Demo.sh Demo.order true
           "https://example.org/processor-lite-v2.apk" "processor-lite-v2.apk" Demo.apk_path
           ltac:(discriminate) eq_refl eq_refl demo_order_perm).
Defined.

Lemma provisioning_query_error_escapes_witness :
  Ssh.main "adb" Demo.missing_adb ["D1"] "pw" "/tmp/t.sh"
    = ([Ssh.Invoke (Ssh.pm_list_args "adb" "D1")],
       inl (PyException "FileNotFoundError" "No such file or directory: 'adb'")) /\
  Ssh.exit_status (snd (Ssh.main "adb" Demo.missing_adb ["D1"] "pw" "/tmp/t.sh")) = 1%Z.
Proof.
  exact (provisioning_query_error_escapes "adb" Demo.missing_adb "D1" [] "pw" "/tmp/t.sh"
           (PyException "FileNotFoundError" "No such file or directory: 'adb'") eq_refl eq_refl).
Defined.

Lemma provisioning_success_trace_witness :
  Ssh.main "adb" Demo.ok_adb ["D1"; "D2"] "pw" "/tmp/t.sh" =
  ([Ssh.Invoke (Ssh.pm_list_args "adb" "D1");
    Ssh.WriteFile "/tmp/t.sh" (termux_bash_script "pw");
    Ssh.Invoke ["adb"; "-s"; "D1"; "shell"; "am"; "force-stop"; "com.termux"];
    Ssh.Sleep 1000;
    Ssh.Invoke (Ssh.push_args "adb" "D1" "/tmp/t.sh");
    Ssh.Invoke (Ssh.chmod_args "adb" "D1");
    Ssh.Invoke ["adb"; "-s"; "D1"; "shell"; "am"; "start"; "-n"; "com.termux/.app.TermuxActivity"];
    Ssh.Sleep 4000;
    Ssh.Invoke ["adb"; "-s"; "D1"; "shell"; "input"; "text"; "bash%s/data/local/tmp/setup_ssh.sh"];
    Ssh.Sleep 500;
    Ssh.Invoke (Ssh.keyevent_args "adb" "D1")], inr 0%Z).
Proof.
  exact (provisioning_success_trace "adb" Demo.ok_adb "D1" ["D2"] "pw" "/tmp/t.sh"
           {| returncode := 0; stdout := "package:com.termux"; stderr := "" |}
           {| returncode := 0; stdout := "package:com.termux"; stderr := "" |}
           {| returncode := 0; stdout := "package:com.termux"; stderr := "" |}
           eq_refl eq_refl eq_refl eq_refl eq_refl eq_refl eq_refl
           ltac:(intros args e H; discriminate H)).
Defined.

Lemma provisioning_push_chmod_fatal_witness :
  let cp := {| returncode := 1; stdout := ""; stderr := "adb: error: failed to copy" |} in
  let ok := {| returncode := 0; stdout := "package:com.termux"; stderr := "" |} in
  let pre := [Ssh.Invoke (Ssh.pm_list_args "adb" "D1");
              Ssh.WriteFile "/tmp/t.sh" (termux_bash_script "pw");
              Ssh.Invoke ["adb"; "-s"; "D1"; "shell"; "am"; "force-stop"; "com.termux"];
              Ssh.Sleep 1000;
              Ssh.Invoke (Ssh.push_args "adb" "D1" "/tmp/t.sh")] in
  (returncode cp <> 0%Z ->
   Ssh.main "adb" push_fails_adb ["D1"] "pw" "/tmp/t.sh"
   = (pre, inl (CalledProcessError (returncode cp) (Ssh.push_args "adb" "D1" "/tmp/t.sh")))) /\
  (returncode cp = 0%Z ->
   push_fails_adb (Ssh.chmod_args "adb" "D1") = Completed ok -> returncode ok <> 0%Z ->
   Ssh.main "adb" push_fails_adb ["D1"] "pw" "/tmp/t.sh"
   = ((pre ++ [Ssh.Invoke (Ssh.chmod_args "adb" "D1")])%list,
      inl (CalledProcessError (returncode ok) (Ssh.chmod_args "adb" "D1")))).
Proof.
  exact (provisioning_push_chmod_fatal "adb" push_fails_adb "D1" [] "pw" "/tmp/t.sh"
           {| returncode := 0; stdout := "package:com.termux"; stderr := "" |}
           {| returncode := 0; stdout := "package:com.termux"; stderr := "" |}
           {| returncode := 1; stdout := ""; stderr := "adb: error: failed to copy" |}
           {| returncode := 0; stdout := "package:com.termux"; stderr := "" |}
           eq_refl eq_refl eq_refl eq_refl eq_refl).
Defined.

Lemma provisioning_writes_script_after_checks_witness :
  "/tmp/t.sh" = "/tmp/t.sh" /\ termux_bash_script "pw" = termux_bash_script "pw" /\
  exists d rest cp, ["D1"] = d :: rest /\ strip_is_empty "pw" = false /\
    Demo.ok_adb (Ssh.pm_list_args "adb" d) = Completed cp /\ py_in "com.termux" (stdout cp) = true.
Proof.
  exact (provisioning_writes_script_after_checks "adb" Demo.ok_adb ["D1"] "pw" "/tmp/t.sh"
           "/tmp/t.sh" (termux_bash_script "pw") ltac:(simpl; auto)).
Defined.
